(** * scripts/reproduce-mlflow-search-bug.py

    The reproducer is a straight-line Python script: it talks to the
    [mlflow] client library, prints progress lines, and either runs to
    its end or dies on an uncaught exception.  Its behaviour is a
    function of what the library answers, so the script is embedded as
    a program over the library's operations (a free monad with one
    node per library call and one per [print]) and run against an
    arbitrary stand-in for the library and the tracking server behind
    it. *)

From Stdlib Require Import String Ascii List Bool ZArith.
From Stdlib Require Import DecimalString DecimalNat.
Import ListNotations.
Open Scope string_scope.

Set Implicit Arguments.

(** ** Python values the script handles *)

(** A Python dict with string keys and values, in insertion order. *)
Definition dict : Type := list (string * string).

(** What the client library hands back.  The script reads a single
    attribute, [v.version], and otherwise only counts records. *)
Record RegisteredModel : Type := { rm_name : string }.
Record ModelVersion : Type := { mv_name : string; version : string }.

(** An exception raised by the client library: an instance of Python's
    [Exception] (MlflowException, a connection error, ...), with its
    class name and its string form [str(e)].  These are the errors
    [except Exception] is written for; the interpreter's own signals
    outside that class (KeyboardInterrupt, SystemExit) are not errors
    of a library call and are not modelled. *)
Record PyExc : Type := { exc_class : string; exc_str : string }.

Definition LF : string := String "010"%char EmptyString.

(** [sub in s] on Python strings. *)
Fixpoint contains (sub s : string) : bool :=
  if prefix sub s then true
  else match s with
       | EmptyString => false
       | String _ t => contains sub t
       end.

(** [str(n)] for a non-negative int, as an f-string renders [len(...)]. *)
Definition str_of_nat (n : nat) : string :=
  NilEmpty.string_of_uint (Nat.to_uint n).

(** ** The library surface the script uses *)

Inductive Call : Type -> Type :=
| set_tracking_uri (uri : string) : Call unit
| MlflowClient : Call unit
| create_registered_model (name : string) (tags : list dict)
    : Call RegisteredModel
| create_model_version (name source : string) (tags : list dict)
    : Call ModelVersion
| get_model_version (name version : string) : Call ModelVersion
| search_model_versions (filter_string : string) : Call (list ModelVersion).

(** ** Scripts *)

Inductive Script (A : Type) : Type :=
| Ret (a : A)
| Raise (e : PyExc)
| Print (line : string) (k : Script A)
| Do (X : Type) (c : Call X) (k : PyExc + X -> Script A).

Arguments Ret {A} a.
Arguments Raise {A} e.
Arguments Print {A} line k.
Arguments Do {A X} c k.

Fixpoint bind {A B : Type} (m : Script A) (f : A -> Script B) : Script B :=
  match m with
  | Ret a => f a
  | Raise e => Raise e
  | Print l k => Print l (bind k f)
  | Do c k => Do c (fun r => bind (k r) f)
  end.

(** A library call in statement position: an exception it raises
    unwinds the script. *)
Definition call {X : Type} (c : Call X) : Script X :=
  Do c (fun r => match r with inl e => Raise e | inr x => Ret x end).

Definition print (line : string) : Script unit := Print line (Ret tt).

(** [try: body / except Exception as e: handler e]. *)
Fixpoint try_except {A : Type} (body : Script A) (handler : PyExc -> Script A)
  : Script A :=
  match body with
  | Ret a => Ret a
  | Raise e => handler e
  | Print l k => Print l (try_except k handler)
  | Do c k => Do c (fun r => try_except (k r) handler)
  end.

Declare Scope script_scope.
Delimit Scope script_scope with script.
Notation "x <- m ;; k" := (bind m (fun x => k))
  (at level 61, m at next level, right associativity) : script_scope.
Notation "m ;; k" := (bind m (fun _ => k))
  (at level 61, right associativity) : script_scope.
Open Scope script_scope.

(** ** The script *)

Definition MODEL_NAME : string := "test-search-bug".

Definition BUG_CONFIRMED : string :=
  LF ++ "*** BUG CONFIRMED: search_model_versions returns empty ***".

Definition main : Script unit :=
  call (set_tracking_uri "http://localhost:5000") ;;
  call MlflowClient ;;
  try_except
    (call (create_registered_model MODEL_NAME
             [[("key", "mlflow.prompt.is_prompt"); ("value", "true")]]) ;;
     print ("Created model: " ++ MODEL_NAME))
    (fun e =>
       if contains "ALREADY_EXISTS" (exc_str e)
       then print ("Model " ++ MODEL_NAME ++ " already exists")
       else Raise e) ;;
  call (create_model_version MODEL_NAME ("mlflow-artifacts:/" ++ MODEL_NAME)
          [[("key", "mlflow.prompt.text"); ("value", "Hello {{name}}!")]]) ;;
  print "Created version" ;;
  v <- call (get_model_version MODEL_NAME "1") ;;
  print ("Direct get works: v" ++ version v) ;;
  print (LF ++ "Trying search_model_versions...") ;;
  versions <- call (search_model_versions ("name='" ++ MODEL_NAME ++ "'")) ;;
  print ("Search returned: " ++ str_of_nat (List.length versions)
         ++ " versions (expected: >= 1)") ;;
  if Nat.eqb (List.length versions) 0
  then print BUG_CONFIRMED ;;
       print "The endpoint returns {} regardless of filter."
  else Ret tt.

(** ** Running a script *)

(** What an observer of one run sees, in order: lines written to
    standard output and library calls with what they gave back. *)
Inductive Event : Type :=
| Printed (line : string)
| Called (X : Type) (c : Call X) (r : PyExc + X).

Arguments Called {X} c r.

Inductive Outcome (A : Type) : Type :=
| Done (a : A)
| Uncaught (e : PyExc).

Arguments Done {A} a.
Arguments Uncaught {A} e.

(** A stand-in for the library and the server: from its own state it
    answers each call with a value or an exception. *)
Definition Backend (S : Type) : Type :=
  forall X : Type, Call X -> S -> (PyExc + X) * S.

Record Run (S A : Type) : Type := mkRun {
  trace : list Event;
  outcome : Outcome A;
  final : S
}.

(** One more event in front of the rest of a run. *)
Definition after {S A : Type} (ev : Event) (r : Run S A) : Run S A :=
  match r with
  | mkRun tr o s => mkRun (ev :: tr) o s
  end.

Fixpoint exec {S A : Type} (L : Backend S) (p : Script A) (s : S) : Run S A :=
  match p with
  | Ret a => mkRun [] (Done a) s
  | Raise e => mkRun [] (Uncaught e) s
  | Print l k => after (Printed l) (exec L k s)
  | Do c k =>
      let '(x, s') := L _ c s in
      after (Called c x) (exec L (k x) s')
  end.

Definition run {S : Type} (L : Backend S) (s : S) : Run S unit :=
  exec L main s.

(** Standard output of a run: the argument of each [print], in order. *)
Fixpoint stdout (tr : list Event) : list string :=
  match tr with
  | [] => []
  | Printed l :: tr' => l :: stdout tr'
  | Called _ _ :: tr' => stdout tr'
  end.

(** ** Reading a trace *)

(** The sequence a [search_model_versions] call returned, if the event
    is such a call and it returned. *)
Definition search_result (ev : Event) : option (list ModelVersion) :=
  match ev with
  | Printed _ => None
  | Called c r =>
      match c in Call X return PyExc + X -> option (list ModelVersion) with
      | search_model_versions _ =>
          fun r => match r with inr vs => Some vs | inl _ => None end
      | _ => fun _ => None
      end r
  end.

(** The exception a [create_registered_model] call raised, if the event
    is such a call and it raised. *)
Definition create_error (ev : Event) : option PyExc :=
  match ev with
  | Printed _ => None
  | Called c r =>
      match c in Call X return PyExc + X -> option PyExc with
      | create_registered_model _ _ =>
          fun r => match r with inl e => Some e | inr _ => None end
      | _ => fun _ => None
      end r
  end.

(** The exception a library call raised, whichever call it is. *)
Definition raised (ev : Event) : option PyExc :=
  match ev with
  | Called _ (inl e) => Some e
  | _ => None
  end.

(** The version identifier a [get_model_version] call was given. *)
Definition lookup_version (ev : Event) : option string :=
  match ev with
  | Called (get_model_version _ ver) _ => Some ver
  | _ => None
  end.

(** The record a [create_model_version] call returned. *)
Definition created_version (ev : Event) : option ModelVersion :=
  match ev with
  | Printed _ => None
  | Called c r =>
      match c in Call X return PyExc + X -> option ModelVersion with
      | create_model_version _ _ _ =>
          fun r => match r with inr v => Some v | inl _ => None end
      | _ => fun _ => None
      end r
  end.

Definition search_returned (vs : list ModelVersion) (tr : list Event) : Prop :=
  exists ev, In ev tr /\ search_result ev = Some vs.

Definition create_raised (e : PyExc) (tr : list Event) : Prop :=
  exists ev, In ev tr /\ create_error ev = Some e.

(** The steps of the probe, and the step each library call belongs to. *)
Inductive Step : Type :=
| Connect | EnsureEntity | CreateVersion | DirectLookup | Search.

Definition step_of {X : Type} (c : Call X) : Step :=
  match c with
  | set_tracking_uri _ => Connect
  | MlflowClient => Connect
  | create_registered_model _ _ => EnsureEntity
  | create_model_version _ _ _ => CreateVersion
  | get_model_version _ _ => DirectLookup
  | search_model_versions _ => Search
  end.

Fixpoint steps (tr : list Event) : list Step :=
  match tr with
  | [] => []
  | Printed _ :: tr' => steps tr'
  | Called c _ :: tr' => step_of c :: steps tr'
  end.

Definition protocol : list Step :=
  [Connect; Connect; EnsureEntity; CreateVersion; DirectLookup; Search].

(** An event is fatal when a call raised and the script has no handler
    that absorbs it: the only handler is the one around
    [create_registered_model], and it absorbs only the exceptions whose
    string form has ALREADY_EXISTS in it. *)
Definition fatal (ev : Event) : bool :=
  match ev with
  | Called (create_registered_model _ _) (inl e) =>
      negb (contains "ALREADY_EXISTS" (exc_str e))
  | Called _ (inl _) => true
  | _ => false
  end.

(** The events of a trace that follow its first fatal event. *)
Fixpoint after_first_fatal (tr : list Event) : list Event :=
  match tr with
  | [] => []
  | ev :: rest => if fatal ev then rest else after_first_fatal rest
  end.

(** The arguments each call must carry to name the one test entity. *)
Definition names_entity (ev : Event) : Prop :=
  match ev with
  | Called (create_registered_model n _) _ => n = "test-search-bug"
  | Called (create_model_version n src _) _ =>
      n = "test-search-bug" /\ src = "mlflow-artifacts:/test-search-bug"
  | Called (get_model_version n _) _ => n = "test-search-bug"
  | Called (search_model_versions f) _ => f = "name='test-search-bug'"
  | _ => True
  end.

(** What the library answered, call by call, with the types erased so
    that the answers of two runs can be compared. *)
Inductive Value : Type :=
| VNone
| VModel (m : RegisteredModel)
| VVersion (v : ModelVersion)
| VVersions (vs : list ModelVersion).

Definition value_of {X : Type} (c : Call X) : X -> Value :=
  match c in Call X return X -> Value with
  | set_tracking_uri _ => fun _ => VNone
  | MlflowClient => fun _ => VNone
  | create_registered_model _ _ => VModel
  | create_model_version _ _ _ => VVersion
  | get_model_version _ _ => VVersion
  | search_model_versions _ => VVersions
  end.

Definition answer_of {X : Type} (c : Call X) (r : PyExc + X) : PyExc + Value :=
  match r with
  | inl e => inl e
  | inr x => inr (value_of c x)
  end.

Fixpoint answers (tr : list Event) : list (PyExc + Value) :=
  match tr with
  | [] => []
  | Printed _ :: tr' => answers tr'
  | Called c r :: tr' => answer_of c r :: answers tr'
  end.

(** The status the interpreter exits with: 0 when the module body runs
    to its end, 1 (after the traceback) when an [Exception] is left
    uncaught. *)
Definition exit_status {A : Type} (o : Outcome A) : Z :=
  match o with
  | Done _ => 0%Z
  | Uncaught _ => 1%Z
  end.

Arguments str_of_nat : simpl never.

(** ** A tracking server to run the script against

    A small in-memory registry with the behaviours the script can meet:
    an entity that is already there, a server that refuses connections,
    versions numbered from 1 per entity, and a search endpoint that can
    be switched to the defective behaviour. *)

Record Registry : Type := {
  reachable : bool;
  search_works : bool;
  models : list string;
  versions : list ModelVersion
}.

Definition connection_refused : PyExc :=
  {| exc_class := "ConnectionError";
     exc_str := "HTTPConnectionPool(host='localhost', port=5000): Connection refused" |}.

Definition already_exists (n : string) : PyExc :=
  {| exc_class := "MlflowException";
     exc_str := "RESOURCE_ALREADY_EXISTS: Registered Model (name=" ++ n
                ++ ") already exists." |}.

Definition not_found (n ver : string) : PyExc :=
  {| exc_class := "MlflowException";
     exc_str := "RESOURCE_DOES_NOT_EXIST: Model Version (name=" ++ n
                ++ ", version=" ++ ver ++ ") not found" |}.

Definition count_versions (n : string) (vs : list ModelVersion) : nat :=
  List.length (filter (fun v => String.eqb (mv_name v) n) vs).

Definition registry : Backend Registry :=
  fun X c =>
    match c in Call X return Registry -> (PyExc + X) * Registry with
    | set_tracking_uri _ => fun s => (inr tt, s)
    | MlflowClient => fun s => (inr tt, s)
    | create_registered_model n _ => fun s =>
        if negb (reachable s) then (inl connection_refused, s)
        else if existsb (String.eqb n) (models s)
             then (inl (already_exists n), s)
             else (inr {| rm_name := n |},
                   {| reachable := reachable s;
                      search_works := search_works s;
                      models := n :: models s;
                      versions := versions s |})
    | create_model_version n _ _ => fun s =>
        let v := {| mv_name := n;
                    version := str_of_nat (S (count_versions n (versions s))) |} in
        (inr v,
         {| reachable := reachable s;
            search_works := search_works s;
            models := models s;
            versions := (versions s ++ [v])%list |})
    | get_model_version n ver => fun s =>
        match find (fun v => String.eqb (mv_name v) n
                             && String.eqb (version v) ver) (versions s) with
        | Some v => (inr v, s)
        | None => (inl (not_found n ver), s)
        end
    | search_model_versions _ => fun s =>
        (inr (if search_works s then versions s else []), s)
    end.

(** A fresh server with the defect, a fresh server without it, a server
    that already holds the entity and one version of it, and a server
    that is down. *)
Definition defective : Registry :=
  {| reachable := true; search_works := false; models := []; versions := [] |}.

Definition healthy : Registry :=
  {| reachable := true; search_works := true; models := []; versions := [] |}.

Definition populated : Registry :=
  {| reachable := true; search_works := true;
     models := ["test-search-bug"];
     versions := [{| mv_name := "test-search-bug"; version := "1" |}] |}.

Definition down : Registry :=
  {| reachable := false; search_works := true; models := []; versions := [] |}.

(** Events these servers produce, named for later use. *)
Definition first_version : ModelVersion :=
  {| mv_name := "test-search-bug"; version := "1" |}.

Definition second_version : ModelVersion :=
  {| mv_name := "test-search-bug"; version := "2" |}.

Definition create_refused : Event :=
  Called (create_registered_model "test-search-bug"
            [[("key", "mlflow.prompt.is_prompt"); ("value", "true")]])
         (inl connection_refused).

Definition create_rejected : Event :=
  Called (create_registered_model "test-search-bug"
            [[("key", "mlflow.prompt.is_prompt"); ("value", "true")]])
         (inl (already_exists "test-search-bug")).

Definition second_version_created : Event :=
  Called (create_model_version "test-search-bug"
            "mlflow-artifacts:/test-search-bug"
            [[("key", "mlflow.prompt.text"); ("value", "Hello {{name}}!")]])
         (inr second_version).

Definition connected : list Event :=
  [Called (set_tracking_uri "http://localhost:5000") (inr tt);
   Called MlflowClient (inr tt)].

(** A server that holds the entity and no version of it yet. *)
Definition entity_only : Registry :=
  {| reachable := true; search_works := true;
     models := ["test-search-bug"]; versions := [] |}.

(** A second stand-in, unrelated to the registry: it answers from a
    canned list and keeps the answers it has not given yet. *)
Definition canned : Backend (list (PyExc + Value)) :=
  fun X c s =>
    let fallback : PyExc := {| exc_class := "StopIteration"; exc_str := "" |} in
    match s with
    | [] => (inl fallback, [])
    | inl e :: s' => (inl e, s')
    | inr v :: s' =>
        (match c in Call X return PyExc + X with
         | set_tracking_uri _ => inr tt
         | MlflowClient => inr tt
         | create_registered_model _ _ =>
             match v with VModel m => inr m | _ => inl fallback end
         | create_model_version _ _ _ =>
             match v with VVersion m => inr m | _ => inl fallback end
         | get_model_version _ _ =>
             match v with VVersion m => inr m | _ => inl fallback end
         | search_model_versions _ =>
             match v with VVersions l => inr l | _ => inl fallback end
         end, s')
    end.

(** ** More ways to read a trace *)

(** The record a [create_registered_model] call returned. *)
Definition created_model (ev : Event) : option RegisteredModel :=
  match ev with
  | Printed _ => None
  | Called c r =>
      match c in Call X return PyExc + X -> option RegisteredModel with
      | create_registered_model _ _ =>
          fun r => match r with inr m => Some m | inl _ => None end
      | _ => fun _ => None
      end r
  end.

(** The record a [get_model_version] call returned. *)
Definition looked_up (ev : Event) : option ModelVersion :=
  match ev with
  | Printed _ => None
  | Called c r =>
      match c in Call X return PyExc + X -> option ModelVersion with
      | get_model_version _ _ =>
          fun r => match r with inr v => Some v | inl _ => None end
      | _ => fun _ => None
      end r
  end.

Definition create_returned (m : RegisteredModel) (tr : list Event) : Prop :=
  exists ev, In ev tr /\ created_model ev = Some m.

Definition lookup_returned (v : ModelVersion) (tr : list Event) : Prop :=
  exists ev, In ev tr /\ looked_up ev = Some v.

(** The calls the script makes outside its [try] block: all of them
    but [create_registered_model]. *)
Definition outside_try (ev : Event) : bool :=
  match ev with
  | Printed _ => false
  | Called (create_registered_model _ _) _ => false
  | Called _ _ => true
  end.

(** The calls of a trace with their arguments, answers left out. *)
Fixpoint requests (tr : list Event) : list {X : Type & Call X} :=
  match tr with
  | [] => []
  | Printed _ :: tr' => requests tr'
  | Called c _ :: tr' => existT Call _ c :: requests tr'
  end.

(** The six calls as the source text spells them, every argument
    written out. *)
Definition script_requests : list {X : Type & Call X} :=
  [existT Call _ (set_tracking_uri "http://localhost:5000");
   existT Call _ MlflowClient;
   existT Call _ (create_registered_model "test-search-bug"
                    [[("key", "mlflow.prompt.is_prompt"); ("value", "true")]]);
   existT Call _ (create_model_version "test-search-bug"
                    "mlflow-artifacts:/test-search-bug"
                    [[("key", "mlflow.prompt.text");
                      ("value", "Hello {{name}}!")]]);
   existT Call _ (get_model_version "test-search-bug" "1");
   existT Call _ (search_model_versions "name='test-search-bug'")].

(** The statements that follow the [try] block, from "Create a
    version" to the end of the file; [main_after_ensure] below shows
    that [main] is the Connect and EnsureEntity steps followed by
    them. *)
Definition after_ensure : Script unit :=
  call (create_model_version MODEL_NAME ("mlflow-artifacts:/" ++ MODEL_NAME)
          [[("key", "mlflow.prompt.text"); ("value", "Hello {{name}}!")]]) ;;
  print "Created version" ;;
  v <- call (get_model_version MODEL_NAME "1") ;;
  print ("Direct get works: v" ++ version v) ;;
  print (LF ++ "Trying search_model_versions...") ;;
  versions <- call (search_model_versions ("name='" ++ MODEL_NAME ++ "'")) ;;
  print ("Search returned: " ++ str_of_nat (List.length versions)
         ++ " versions (expected: >= 1)") ;;
  if Nat.eqb (List.length versions) 0
  then print BUG_CONFIRMED ;;
       print "The endpoint returns {} regardless of filter."
  else Ret tt.

(** The line [print(f"Search returned: {n} versions (expected: >= 1)")]
    writes. *)
Definition count_line (n : nat) : string :=
  "Search returned: " ++ str_of_nat n ++ " versions (expected: >= 1)".

(** A server on which the entity exists and [create_model_version]
    is itself refused with an ALREADY_EXISTS error, and one whose
    lookup hands back a record numbered 7. *)
Definition version_conflict : PyExc :=
  {| exc_class := "MlflowException";
     exc_str := "RESOURCE_ALREADY_EXISTS: Model Version (name=test-search-bug, version=1) already exists." |}.

Definition conflicting : list (PyExc + Value) :=
  [inr VNone; inr VNone; inl (already_exists "test-search-bug");
   inl version_conflict].

Definition version_create_conflict : Event :=
  Called (create_model_version "test-search-bug"
            "mlflow-artifacts:/test-search-bug"
            [[("key", "mlflow.prompt.text"); ("value", "Hello {{name}}!")]])
         (inl version_conflict).

Definition seventh_version : ModelVersion :=
  {| mv_name := "test-search-bug"; version := "7" |}.

Definition renumbering : list (PyExc + Value) :=
  [inr VNone; inr VNone; inr (VModel {| rm_name := "test-search-bug" |});
   inr (VVersion seventh_version); inr (VVersion seventh_version);
   inr (VVersions [seventh_version])].

Definition seventh_looked_up : Event :=
  Called (get_model_version "test-search-bug" "1") (inr seventh_version).

(** ** Proof automation: walking the script call by call *)

Ltac answer :=
  match goal with
  | L : Backend _ |- context [ ?L' ?X ?c ?s ] =>
      constr_eq L L';
      let e := fresh "e" in
      let x := fresh "x" in
      let s' := fresh "s" in
      destruct (L X c s) as [[e | x] s']; cbn
  end.

Ltac branch :=
  match goal with
  | H : contains ?a ?b = _ |- context [ contains ?a ?b ] => rewrite H; cbn
  | |- context [ contains ?a ?b ] =>
      let E := fresh "Hin" in destruct (contains a b) eqn:E; cbn
  | |- context [ Nat.eqb (List.length ?l) 0 ] => destruct l; cbn
  end.

Ltac walk := unfold run, main; cbn; repeat (answer || branch).

(** The same walk, stopping in front of the statements after the
    [try] block. *)
Ltac answer_ensure :=
  match goal with
  | L : Backend _ |- context [ ?L' ?X ?c ?s ] =>
      constr_eq L L';
      let e := fresh "e" in
      let x := fresh "x" in
      let s' := fresh "s" in
      destruct (L X c s) as [[e | x] s']; cbn -[after_ensure]
  | |- context [ contains ?a ?b ] =>
      let E := fresh "Hin" in
      destruct (contains a b) eqn:E; cbn -[after_ensure]
  end.

(** Names the events a hypothesis of the form [exists ev, In ev tr /\ _]
    can stand for, one goal per event of an explicit trace. *)
Ltac pick H :=
  let ev := fresh "ev" in
  let Hev := fresh "Hev" in
  let Hobs := fresh "Hobs" in
  destruct H as [ev [Hev Hobs]];
  cbn in Hev;
  repeat (destruct Hev as [Hev | Hev]; [subst ev; cbn in Hobs | ]);
  try contradiction.

(** Proves [exists ev, In ev tr /\ obs ev = Some _] on an explicit
    trace by trying its events in turn. *)
Ltac by_event :=
  match goal with
  | |- context [ @cons Event ?a _ ] =>
      exists a; split; [cbn; tauto | reflexivity]
  end.

(** Splits an explicit list in front of a given tail. *)
Ltac cut_tail :=
  match goal with
  | |- ?l = app ?pre ?suf =>
      let n := eval lazy in (List.length l - List.length suf) in
      let p := eval lazy [firstn] in (firstn n l) in
      unify pre p; reflexivity
  end.

Example run_on_defective :
  stdout (trace (run registry defective)) =
    ["Created model: test-search-bug";
     "Created version";
     "Direct get works: v1";
     LF ++ "Trying search_model_versions...";
     "Search returned: 0 versions (expected: >= 1)";
     LF ++ "*** BUG CONFIRMED: search_model_versions returns empty ***";
     "The endpoint returns {} regardless of filter."]
  /\ outcome (run registry defective) = Done tt.
Proof. split; reflexivity. Qed.

Example run_on_populated :
  stdout (trace (run registry populated)) =
    ["Model test-search-bug already exists";
     "Created version";
     "Direct get works: v1";
     LF ++ "Trying search_model_versions...";
     "Search returned: 2 versions (expected: >= 1)"]
  /\ steps (trace (run registry populated)) = protocol.
Proof. split; reflexivity. Qed.

Example run_on_down :
  trace (run registry down) =
    [Called (set_tracking_uri "http://localhost:5000") (inr tt);
     Called MlflowClient (inr tt);
     Called (create_registered_model "test-search-bug"
               [[("key", "mlflow.prompt.is_prompt"); ("value", "true")]])
            (inl connection_refused)]
  /\ outcome (run registry down) = Uncaught connection_refused.
Proof. split; reflexivity. Qed.

(** ** The substring test *)

Lemma prefix_app (sub s : string) :
  prefix sub s = true <-> exists post, s = sub ++ post.
Proof.
  revert s; induction sub as [| a sub IH]; intros s.
  - split; [intros _; now exists s | intros _; now destruct s].
  - destruct s as [| b s]; simpl.
    + split; [discriminate | intros [post H]; discriminate H].
    + destruct (ascii_dec a b) as [-> | Hab].
      * rewrite IH. split; intros [post H]; exists post.
        -- now rewrite H.
        -- now injection H.
      * split; [discriminate | intros [post H]].
        injection H as H1 _. now elim Hab.
Qed.

Lemma contains_app (sub s : string) :
  contains sub s = true <-> exists pre post, s = pre ++ sub ++ post.
Proof.
  induction s as [| b s IH]; cbn [contains].
  - destruct (prefix sub "") eqn:Hp.
    + apply prefix_app in Hp as [post Hp].
      split; [intros _; now exists "", post | reflexivity].
    + split; [discriminate | intros [pre [post H]]].
      destruct pre; simpl in H; [| discriminate H].
      assert (prefix sub "" = true) as Hp' by (apply prefix_app; now exists post).
      congruence.
  - destruct (prefix sub (String b s)) eqn:Hp.
    + apply prefix_app in Hp as [post Hp].
      split; [intros _; now exists "", post | reflexivity].
    + rewrite IH. split.
      * intros [pre [post H]]. exists (String b pre), post. simpl. now rewrite H.
      * intros [pre [post H]]. destruct pre as [| c pre]; simpl in H.
        -- assert (prefix sub (String b s) = true) as Hp'
             by (apply prefix_app; now exists post).
           congruence.
        -- injection H as _ H. now exists pre, post.
Qed.

Example contains_is_case_sensitive :
  contains "ALREADY_EXISTS" "Registered Model already_exists" = false
  /\ contains "ALREADY_EXISTS" (exc_str (already_exists MODEL_NAME)) = true.
Proof. split; reflexivity. Qed.

(** ** Claims about the search step *)

(** C1: in every run in which [search_model_versions] returns an empty
    sequence, the script prints the count line with 0 and, right after
    it, the BUG CONFIRMED message (followed by its explanatory line);
    these are the last things the run does, and it ends normally. *)
Theorem empty_search_prints_bug_confirmed
    (S : Type) (L : Backend S) (s : S) :
  search_returned [] (trace (run L s)) ->
  exists pre f,
    trace (run L s) =
      (pre ++ [Called (search_model_versions f) (inr []);
               Printed "Search returned: 0 versions (expected: >= 1)";
               Printed BUG_CONFIRMED;
               Printed "The endpoint returns {} regardless of filter."])%list
    /\ outcome (run L s) = Done tt.
Proof.
  walk; intros H; pick H; try discriminate;
    eexists; eexists; (split; [cut_tail | reflexivity]).
Qed.

Lemma empty_search_prints_bug_confirmed_witness :
  search_returned [] (trace (run registry defective))
  /\ exists pre f,
       trace (run registry defective) =
         (pre ++ [Called (search_model_versions f) (inr []);
                  Printed "Search returned: 0 versions (expected: >= 1)";
                  Printed BUG_CONFIRMED;
                  Printed "The endpoint returns {} regardless of filter."])%list
       /\ outcome (run registry defective) = Done tt.
Proof.
  assert (H : search_returned [] (trace (run registry defective))).
  { exists (Called (search_model_versions "name='test-search-bug'") (inr [])).
    split; [cbv; tauto | reflexivity]. }
  split; [exact H | exact (empty_search_prints_bug_confirmed registry defective H)].
Defined.

(** C4: in every run in which [search_model_versions] returns one or
    more records, the script prints the count of the records returned,
    that line is the last thing the run does, and the BUG CONFIRMED
    message is not among the lines printed. *)
Theorem nonempty_search_prints_count_only
    (S : Type) (L : Backend S) (s : S) (vs : list ModelVersion) :
  search_returned vs (trace (run L s)) ->
  vs <> [] ->
  (exists pre f,
     trace (run L s) =
       (pre ++ [Called (search_model_versions f) (inr vs);
                Printed ("Search returned: " ++ str_of_nat (List.length vs)
                         ++ " versions (expected: >= 1)")])%list)
  /\ ~ In BUG_CONFIRMED (stdout (trace (run L s))).
Proof.
  walk; intros H Hne; pick H; try discriminate;
    injection Hobs as <-; try (now elim Hne);
    (split; [eexists; eexists; cut_tail |]);
    cbn; intros Hbug; repeat (destruct Hbug as [Hbug | Hbug]; try discriminate Hbug);
    exact Hbug.
Qed.

Lemma nonempty_search_prints_count_only_witness :
  search_returned [first_version] (trace (run registry healthy))
  /\ [first_version] <> []
  /\ (exists pre f,
        trace (run registry healthy) =
          (pre ++ [Called (search_model_versions f) (inr [first_version]);
                   Printed ("Search returned: "
                            ++ str_of_nat (List.length [first_version])
                            ++ " versions (expected: >= 1)")])%list)
  /\ ~ In BUG_CONFIRMED (stdout (trace (run registry healthy))).
Proof.
  assert (H : search_returned [first_version] (trace (run registry healthy))).
  { exists (Called (search_model_versions "name='test-search-bug'")
                   (inr [first_version])).
    split; [cbv; tauto | reflexivity]. }
  assert (Hne : [first_version] <> []) by discriminate.
  split; [exact H | split; [exact Hne |]].
  exact (nonempty_search_prints_count_only registry healthy H Hne).
Defined.

(** ** Claims about the handler around [create_registered_model] *)

(** C2: in every run in which [create_registered_model] raises an
    exception whose string form has ALREADY_EXISTS in it, the script
    prints the already-exists line and its next call is
    [create_model_version]; if the run later dies on an exception, that
    exception was raised by [create_model_version] or a later call, not
    re-raised by the handler. *)
Theorem already_exists_is_absorbed
    (S : Type) (L : Backend S) (s : S) (e : PyExc) :
  create_raised e (trace (run L s)) ->
  contains "ALREADY_EXISTS" (exc_str e) = true ->
  exists pre n tags src vtags r post,
    trace (run L s) =
      (pre ++ Called (create_registered_model n tags) (inl e)
           :: Printed "Model test-search-bug already exists"
           :: Called (create_model_version MODEL_NAME src vtags) r
           :: post)%list
    /\ forall x, outcome (run L s) = Uncaught x ->
         exists ev,
           In ev (Called (create_model_version MODEL_NAME src vtags) r :: post)
           /\ raised ev = Some x.
Proof.
  walk; intros H He; pick H; try discriminate;
    injection Hobs as <-; try congruence;
    exists [Called (set_tracking_uri "http://localhost:5000") (inr x);
            Called MlflowClient (inr x0)];
    do 6 eexists; (split; [reflexivity |]);
    intros y Hy; try discriminate Hy; injection Hy as <-;
    eauto 20 using in_eq, in_cons.
Qed.

Lemma already_exists_is_absorbed_witness :
  create_raised (already_exists "test-search-bug")
    (trace (run registry populated))
  /\ contains "ALREADY_EXISTS" (exc_str (already_exists "test-search-bug"))
     = true
  /\ exists pre n tags src vtags r post,
       trace (run registry populated) =
         (pre ++ Called (create_registered_model n tags)
                   (inl (already_exists "test-search-bug"))
              :: Printed "Model test-search-bug already exists"
              :: Called (create_model_version MODEL_NAME src vtags) r
              :: post)%list
       /\ forall x, outcome (run registry populated) = Uncaught x ->
            exists ev,
              In ev (Called (create_model_version MODEL_NAME src vtags) r :: post)
              /\ raised ev = Some x.
Proof.
  assert (H : create_raised (already_exists "test-search-bug")
                (trace (run registry populated))).
  { exists create_rejected. split; [cbv; tauto | reflexivity]. }
  assert (He : contains "ALREADY_EXISTS"
                 (exc_str (already_exists "test-search-bug")) = true)
    by reflexivity.
  split; [exact H | split; [exact He |]].
  exact (already_exists_is_absorbed registry populated H He).
Defined.

(** C3: in every run in which [create_registered_model] raises an
    exception whose string form lacks ALREADY_EXISTS, the run ends with
    that very exception uncaught, and the failed call is the last event
    of the run: no further call is made and nothing more is printed. *)
Theorem other_errors_propagate_unchanged
    (S : Type) (L : Backend S) (s : S) (e : PyExc) :
  create_raised e (trace (run L s)) ->
  contains "ALREADY_EXISTS" (exc_str e) = false ->
  outcome (run L s) = Uncaught e
  /\ exists pre n tags,
       trace (run L s) =
         (pre ++ [Called (create_registered_model n tags) (inl e)])%list
       /\ steps pre = [Connect; Connect].
Proof.
  walk; intros H He; pick H; try discriminate;
    injection Hobs as <-; try congruence;
    (split; [reflexivity |]);
    exists [Called (set_tracking_uri "http://localhost:5000") (inr x);
            Called MlflowClient (inr x0)];
    eexists; eexists; split; reflexivity.
Qed.

Lemma other_errors_propagate_unchanged_witness :
  create_raised connection_refused (trace (run registry down))
  /\ contains "ALREADY_EXISTS" (exc_str connection_refused) = false
  /\ outcome (run registry down) = Uncaught connection_refused
  /\ exists pre n tags,
       trace (run registry down) =
         (pre ++ [Called (create_registered_model n tags)
                    (inl connection_refused)])%list
       /\ steps pre = [Connect; Connect].
Proof.
  assert (H : create_raised connection_refused (trace (run registry down))).
  { exists create_refused. split; [cbv; tauto | reflexivity]. }
  assert (He : contains "ALREADY_EXISTS" (exc_str connection_refused) = false)
    by reflexivity.
  split; [exact H | split; [exact He |]].
  exact (other_errors_propagate_unchanged registry down H He).
Defined.

(** ** Claims about the shape of a run *)

(** C5: every [get_model_version] call of a run carries the version
    identifier "1"; and whatever record [create_model_version] returned
    (whatever identifier the server gave the new version), the call
    that follows is [get_model_version] on the test entity with "1". *)
Theorem lookup_uses_literal_one
    (S : Type) (L : Backend S) (s : S) :
  (forall ev ver,
     In ev (trace (run L s)) -> lookup_version ev = Some ver -> ver = "1")
  /\ (forall ev mv,
        In ev (trace (run L s)) -> created_version ev = Some mv ->
        exists pre r post,
          trace (run L s) =
            (pre ++ ev :: Printed "Created version"
                 :: Called (get_model_version "test-search-bug" "1") r
                 :: post)%list).
Proof.
  walk; (split; intros ev y Hev Hobs); cbn in Hev;
    repeat (destruct Hev as [Hev | Hev]; [subst ev; cbn in Hobs | ]);
    try contradiction; try discriminate; try (now injection Hobs as <-);
    eexists [_; _; _; _]; eexists; eexists; reflexivity.
Qed.

Lemma lookup_uses_literal_one_witness :
  In second_version_created (trace (run registry populated))
  /\ created_version second_version_created = Some second_version
  /\ exists pre r post,
       trace (run registry populated) =
         (pre ++ second_version_created :: Printed "Created version"
              :: Called (get_model_version "test-search-bug" "1") r
              :: post)%list.
Proof.
  assert (H : In second_version_created (trace (run registry populated)))
    by (cbv; tauto).
  assert (Hc : created_version second_version_created = Some second_version)
    by reflexivity.
  split; [exact H | split; [exact Hc |]].
  exact (proj2 (lookup_uses_literal_one registry populated)
           second_version_created second_version H Hc).
Defined.

(** In a trace with nothing after its first fatal event, a fatal event
    can only be the last one. *)
Lemma fatal_event_is_last (tr pre post : list Event) (ev : Event) :
  after_first_fatal tr = [] ->
  tr = (pre ++ ev :: post)%list ->
  fatal ev = true ->
  post = [].
Proof.
  revert tr; induction pre as [| a pre IH]; intros tr Hnone -> Hfatal;
    simpl in Hnone.
  - now rewrite Hfatal in Hnone.
  - destruct (fatal a).
    + now destruct pre.
    + now apply (IH _ Hnone).
Qed.

(** C6: the library calls of a run are made in the fixed order Connect
    (set_tracking_uri, MlflowClient), EnsureEntity, CreateVersion,
    DirectLookup, Search, the run stopping somewhere along that order;
    a run that ends normally made all of them; and once a call has
    raised an exception that the script does not absorb, the run makes
    no further call (nor prints anything). *)
Theorem calls_in_order_and_abort_after_fatal
    (S : Type) (L : Backend S) (s : S) :
  (exists n, steps (trace (run L s)) = firstn n protocol)
  /\ (outcome (run L s) = Done tt -> steps (trace (run L s)) = protocol)
  /\ (forall pre ev post,
        trace (run L s) = (pre ++ ev :: post)%list ->
        fatal ev = true ->
        post = []).
Proof.
  assert (Hnone : after_first_fatal (trace (run L s)) = []).
  { walk; reflexivity. }
  split; [| split].
  - walk;
      solve [ now exists 1 | now exists 2 | now exists 3
            | now exists 4 | now exists 5 | now exists 6 ].
  - walk; intros H; try discriminate H; reflexivity.
  - intros pre ev post Htr Hfatal.
    exact (@fatal_event_is_last _ pre post ev Hnone Htr Hfatal).
Qed.

Lemma calls_in_order_and_abort_after_fatal_witness :
  trace (run registry down) = (connected ++ create_refused :: [])%list
  /\ fatal create_refused = true
  /\ @nil Event = []
  /\ (exists n, steps (trace (run registry down)) = firstn n protocol)
  /\ outcome (run registry defective) = Done tt
  /\ steps (trace (run registry defective)) = protocol.
Proof.
  assert (Htr : trace (run registry down)
                = (connected ++ create_refused :: [])%list) by reflexivity.
  assert (Hfatal : fatal create_refused = true) by reflexivity.
  assert (Hdone : outcome (run registry defective) = Done tt) by reflexivity.
  split; [exact Htr | split; [exact Hfatal |]].
  split.
  { exact (proj2 (proj2 (calls_in_order_and_abort_after_fatal registry down))
             connected create_refused [] Htr Hfatal). }
  split.
  { exact (proj1 (calls_in_order_and_abort_after_fatal registry down)). }
  split; [exact Hdone |].
  exact (proj1 (proj2 (calls_in_order_and_abort_after_fatal registry defective))
           Hdone).
Defined.

(** C7: a run that gets through all its steps (its search call
    returned, with records or with none) exits with status 0; a run
    exits with a nonzero status only when its last event is a library
    call that raised an exception the script does not absorb, and that
    exception is the one left uncaught. *)
Theorem exit_status_zero_unless_uncaught
    (S : Type) (L : Backend S) (s : S) :
  (forall vs,
     search_returned vs (trace (run L s)) ->
     exit_status (outcome (run L s)) = 0%Z)
  /\ (exit_status (outcome (run L s)) <> 0%Z ->
      exists pre ev e,
        trace (run L s) = (pre ++ [ev])%list
        /\ raised ev = Some e
        /\ fatal ev = true
        /\ outcome (run L s) = Uncaught e).
Proof.
  split.
  - walk; intros vs H; pick H; try discriminate; reflexivity.
  - walk; intros H; try (now elim H);
      eexists; eexists; eexists;
      (split; [cut_tail | cbn; rewrite ?Hin; repeat split; reflexivity]).
Qed.

Lemma exit_status_zero_unless_uncaught_witness :
  (search_returned [] (trace (run registry defective))
   /\ exit_status (outcome (run registry defective)) = 0%Z)
  /\ (exit_status (outcome (run registry down)) <> 0%Z
      /\ exists pre ev e,
           trace (run registry down) = (pre ++ [ev])%list
           /\ raised ev = Some e
           /\ fatal ev = true
           /\ outcome (run registry down) = Uncaught e).
Proof.
  assert (H : search_returned [] (trace (run registry defective))).
  { exists (Called (search_model_versions "name='test-search-bug'") (inr [])).
    split; [cbv; tauto | reflexivity]. }
  assert (Hnz : exit_status (outcome (run registry down)) <> 0%Z)
    by discriminate.
  split.
  - split; [exact H |].
    exact (proj1 (exit_status_zero_unless_uncaught registry defective) [] H).
  - split; [exact Hnz |].
    exact (proj2 (exit_status_zero_unless_uncaught registry down) Hnz).
Defined.

(** C8: when [create_registered_model] raises, the split is decided by
    the string form of the exception alone.  The exception is absorbed
    (the already-exists line is printed and the run goes on to
    [create_model_version]) if and only if its string form has the
    exact substring ALREADY_EXISTS somewhere in it; it is fatal (left
    uncaught, with no call after EnsureEntity) if and only if it has
    not. *)
Theorem split_is_by_substring
    (S : Type) (L : Backend S) (s : S) (e : PyExc) :
  create_raised e (trace (run L s)) ->
  ((exists pre post, exc_str e = pre ++ "ALREADY_EXISTS" ++ post)
   <-> (In (Printed "Model test-search-bug already exists") (trace (run L s))
        /\ In CreateVersion (steps (trace (run L s)))))
  /\ (~ (exists pre post, exc_str e = pre ++ "ALREADY_EXISTS" ++ post)
      <-> (outcome (run L s) = Uncaught e
           /\ steps (trace (run L s)) = [Connect; Connect; EnsureEntity])).
Proof.
  rewrite <- contains_app.
  walk; intros H; pick H; try discriminate; injection Hobs as <-;
    try congruence; cbn; intuition (try discriminate; try congruence).
Qed.

Lemma split_is_by_substring_witness :
  create_raised (already_exists "test-search-bug")
    (trace (run registry populated))
  /\ ((exists pre post,
         exc_str (already_exists "test-search-bug")
         = pre ++ "ALREADY_EXISTS" ++ post)
      <-> (In (Printed "Model test-search-bug already exists")
              (trace (run registry populated))
           /\ In CreateVersion (steps (trace (run registry populated)))))
  /\ (~ (exists pre post,
           exc_str (already_exists "test-search-bug")
           = pre ++ "ALREADY_EXISTS" ++ post)
      <-> (outcome (run registry populated)
           = Uncaught (already_exists "test-search-bug")
           /\ steps (trace (run registry populated))
              = [Connect; Connect; EnsureEntity])).
Proof.
  assert (H : create_raised (already_exists "test-search-bug")
                (trace (run registry populated))).
  { exists create_rejected. split; [cbv; tauto | reflexivity]. }
  split; [exact H |].
  exact (split_is_by_substring registry populated H).
Defined.

(** C9: every call of every run names the one test entity: the name
    given to [create_registered_model], [create_model_version] and
    [get_model_version] is "test-search-bug", the source locator is
    "mlflow-artifacts:/test-search-bug", and the search filter is
    "name='test-search-bug'".  The four operations are really made
    with it: a run that ends normally contains the four calls, each
    carrying these arguments. *)
Theorem every_call_names_the_test_entity
    (S : Type) (L : Backend S) (s : S) :
  Forall names_entity (trace (run L s))
  /\ (outcome (run L s) = Done tt ->
      exists ctags r1 vtags r2 r3 r4,
        In (Called (create_registered_model "test-search-bug" ctags) r1)
           (trace (run L s))
        /\ In (Called (create_model_version "test-search-bug"
                         "mlflow-artifacts:/test-search-bug" vtags) r2)
              (trace (run L s))
        /\ In (Called (get_model_version "test-search-bug" "1") r3)
              (trace (run L s))
        /\ In (Called (search_model_versions "name='test-search-bug'") r4)
              (trace (run L s))).
Proof.
  split.
  - walk; repeat constructor.
  - walk; intros H; try discriminate H;
      do 6 eexists; repeat split; cbn;
      repeat (first [left; reflexivity | right]).
Qed.

Lemma every_call_names_the_test_entity_witness :
  outcome (run registry defective) = Done tt
  /\ Forall names_entity (trace (run registry defective))
  /\ exists ctags r1 vtags r2 r3 r4,
       In (Called (create_registered_model "test-search-bug" ctags) r1)
          (trace (run registry defective))
       /\ In (Called (create_model_version "test-search-bug"
                        "mlflow-artifacts:/test-search-bug" vtags) r2)
             (trace (run registry defective))
       /\ In (Called (get_model_version "test-search-bug" "1") r3)
             (trace (run registry defective))
       /\ In (Called (search_model_versions "name='test-search-bug'") r4)
             (trace (run registry defective)).
Proof.
  assert (H : outcome (run registry defective) = Done tt) by reflexivity.
  split; [exact H | split].
  - exact (proj1 (every_call_names_the_test_entity registry defective)).
  - exact (proj2 (every_call_names_the_test_entity registry defective) H).
Defined.

(** ** Determinism in the library's answers *)

Lemma trace_after (S A : Type) (ev : Event) (r : Run S A) :
  trace (after ev r) = ev :: trace r.
Proof. now destruct r. Qed.

Lemma outcome_after (S A : Type) (ev : Event) (r : Run S A) :
  outcome (after ev r) = outcome r.
Proof. now destruct r. Qed.

Lemma answer_of_inj (X : Type) (c : Call X) (r1 r2 : PyExc + X) :
  answer_of c r1 = answer_of c r2 -> r1 = r2.
Proof.
  destruct r1 as [e1 | x1], r2 as [e2 | x2]; simpl;
    intros H; try discriminate H.
  - now injection H as ->.
  - injection H as H. f_equal. revert x1 x2 H.
    destruct c; simpl; intros x1 x2 H;
      try (now destruct x1, x2); now injection H.
Qed.

(** Whatever the script, two runs of it whose calls are answered alike
    are the same run to an observer. *)
Lemma exec_determined_by_answers
    (A : Type) (p : Script A)
    (S1 S2 : Type) (L1 : Backend S1) (L2 : Backend S2) (s1 : S1) (s2 : S2) :
  answers (trace (exec L1 p s1)) = answers (trace (exec L2 p s2)) ->
  trace (exec L1 p s1) = trace (exec L2 p s2)
  /\ outcome (exec L1 p s1) = outcome (exec L2 p s2).
Proof.
  revert s1 s2; induction p as [a | e | l k IH | X c k IH]; intros s1 s2;
    cbn [exec].
  - now split.
  - now split.
  - rewrite !trace_after, !outcome_after. cbn [answers]. intros H.
    destruct (IH s1 s2 H) as [-> ->]. now split.
  - destruct (L1 X c s1) as [r1 t1], (L2 X c s2) as [r2 t2].
    rewrite !trace_after, !outcome_after. cbn [answers]. intros H.
    injection H as Hr H. apply answer_of_inj in Hr as ->.
    destruct (IH r2 t1 t2 H) as [-> ->]. now split.
Qed.

(** C10: two runs of the script in which the library returns or raises
    the same thing at each call print the same lines and end the same
    way (both normally, or both on the same uncaught exception), even
    against different stand-ins in different states; indeed all their
    events agree. *)
Theorem output_determined_by_answers
    (S1 S2 : Type) (L1 : Backend S1) (L2 : Backend S2) (s1 : S1) (s2 : S2) :
  answers (trace (run L1 s1)) = answers (trace (run L2 s2)) ->
  stdout (trace (run L1 s1)) = stdout (trace (run L2 s2))
  /\ outcome (run L1 s1) = outcome (run L2 s2)
  /\ trace (run L1 s1) = trace (run L2 s2).
Proof.
  intros H. destruct (exec_determined_by_answers main L1 L2 s1 s2 H) as [Ht Ho].
  unfold run. rewrite Ht, Ho. now repeat split.
Qed.

Lemma output_determined_by_answers_witness :
  answers (trace (run registry defective))
  = answers (trace (run canned (answers (trace (run registry defective)))))
  /\ stdout (trace (run registry defective))
     = stdout (trace (run canned (answers (trace (run registry defective)))))
  /\ outcome (run registry defective)
     = outcome (run canned (answers (trace (run registry defective))))
  /\ trace (run registry defective)
     = trace (run canned (answers (trace (run registry defective)))).
Proof.
  assert (H : answers (trace (run registry defective))
              = answers (trace (run canned
                                  (answers (trace (run registry defective))))))
    by reflexivity.
  split; [exact H |].
  exact (output_determined_by_answers registry canned defective
           (answers (trace (run registry defective))) H).
Defined.

(** ** Further properties of the script *)

(** X1: the handler covers [create_registered_model] only.  An
    exception raised by any other call ends the run uncaught and
    unchanged, with that call as the last event, whatever its string
    form: an ALREADY_EXISTS error from [create_model_version] is not
    absorbed. *)
Theorem errors_outside_try_are_fatal
    (S : Type) (L : Backend S) (s : S) (ev : Event) (e : PyExc) :
  In ev (trace (run L s)) ->
  outside_try ev = true ->
  raised ev = Some e ->
  outcome (run L s) = Uncaught e
  /\ exists pre, trace (run L s) = (pre ++ [ev])%list.
Proof.
  revert ev e. walk; intros ev y Hev Hout Hr; cbn in Hev;
    repeat (destruct Hev as [Hev | Hev]; [subst ev; cbn in Hout, Hr | ]);
    try contradiction; try discriminate;
    injection Hr as <-; (split; [reflexivity | eexists; cut_tail]).
Qed.

Lemma errors_outside_try_are_fatal_witness :
  In version_create_conflict (trace (run canned conflicting))
  /\ outside_try version_create_conflict = true
  /\ raised version_create_conflict = Some version_conflict
  /\ contains "ALREADY_EXISTS" (exc_str version_conflict) = true
  /\ outcome (run canned conflicting) = Uncaught version_conflict
  /\ exists pre,
       trace (run canned conflicting) = (pre ++ [version_create_conflict])%list.
Proof.
  assert (H : In version_create_conflict (trace (run canned conflicting)))
    by (cbv; tauto).
  assert (Ho : outside_try version_create_conflict = true) by reflexivity.
  assert (Hr : raised version_create_conflict = Some version_conflict)
    by reflexivity.
  split; [exact H | split; [exact Ho | split; [exact Hr |]]].
  split; [reflexivity |].
  exact (errors_outside_try_are_fatal canned conflicting
           version_create_conflict H Ho Hr).
Defined.

(** X2: the BUG CONFIRMED line is printed exactly in the runs whose
    search call returned an empty sequence: never when the search
    raised, was not reached, or returned records. *)
Theorem bug_confirmed_iff_empty_search
    (S : Type) (L : Backend S) (s : S) :
  In BUG_CONFIRMED (stdout (trace (run L s)))
  <-> search_returned [] (trace (run L s)).
Proof.
  walk;
    (split;
     [ intros H; cbn in H;
       repeat (destruct H as [H | H]; try discriminate H);
       try contradiction;
       unfold search_returned; eauto 20 using in_eq, in_cons
     | intros H; pick H; try discriminate; cbn; tauto ]).
Qed.

(** X3: the two lines of the EnsureEntity step tell its two ways of
    succeeding apart.  "Created model" is printed exactly when
    [create_registered_model] returned, the already-exists line exactly
    when it raised an absorbed exception; no run prints both, and a
    run that goes on to [create_model_version] has printed one. *)
Theorem ensure_entity_lines
    (S : Type) (L : Backend S) (s : S) :
  (In "Created model: test-search-bug" (stdout (trace (run L s)))
   <-> exists m, create_returned m (trace (run L s)))
  /\ (In "Model test-search-bug already exists" (stdout (trace (run L s)))
      <-> exists e, create_raised e (trace (run L s))
                    /\ contains "ALREADY_EXISTS" (exc_str e) = true)
  /\ ~ (In "Created model: test-search-bug" (stdout (trace (run L s)))
        /\ In "Model test-search-bug already exists"
             (stdout (trace (run L s))))
  /\ (In CreateVersion (steps (trace (run L s))) ->
      In "Created model: test-search-bug" (stdout (trace (run L s)))
      \/ In "Model test-search-bug already exists"
           (stdout (trace (run L s)))).
Proof.
  split; [| split; [| split ]].
  - walk;
      (split;
       [ intros H; cbn in H;
         repeat (destruct H as [H | H]; try discriminate H);
         try contradiction;
         eexists; by_event
       | intros [rmod H]; pick H; try discriminate; cbn; tauto ]).
  - walk;
      (split;
       [ intros H; cbn in H;
         repeat (destruct H as [H | H]; try discriminate H);
         try contradiction;
         eexists; (split; [by_event | assumption])
       | intros [y [H Hy]]; pick H; try discriminate;
         injection Hobs as <-; try congruence; cbn; tauto ]).
  - walk; intros [H1 H2]; cbn in H1, H2;
      repeat (destruct H1 as [H1 | H1]; try discriminate H1);
      try contradiction;
      repeat (destruct H2 as [H2 | H2]; try discriminate H2);
      contradiction.
  - walk; intros H; cbn in H;
      repeat (destruct H as [H | H]; try discriminate H);
      try contradiction; cbn; tauto.
Qed.

Lemma ensure_entity_lines_witness :
  In CreateVersion (steps (trace (run registry populated)))
  /\ (In "Created model: test-search-bug"
         (stdout (trace (run registry populated)))
      \/ In "Model test-search-bug already exists"
           (stdout (trace (run registry populated)))).
Proof.
  assert (H : In CreateVersion (steps (trace (run registry populated))))
    by (cbv; tauto).
  split; [exact H |].
  exact (proj2 (proj2 (proj2 (ensure_entity_lines registry populated))) H).
Defined.

(** X4: the direct-get line reports the version number found in the
    record the server returned, not the "1" that was asked for.  Right
    after [get_model_version] returns a record [v] the script prints
    "Direct get works: v" followed by [v.version], then announces the
    search, then makes the search call. *)
Theorem direct_get_line_reports_returned_version
    (S : Type) (L : Backend S) (s : S) (ev : Event) (v : ModelVersion) :
  In ev (trace (run L s)) ->
  looked_up ev = Some v ->
  exists pre r post,
    trace (run L s) =
      (pre ++ ev
           :: Printed ("Direct get works: v" ++ version v)
           :: Printed (LF ++ "Trying search_model_versions...")
           :: Called (search_model_versions "name='test-search-bug'") r
           :: post)%list.
Proof.
  revert ev v. walk; intros ev y Hev Hobs; cbn in Hev;
    repeat (destruct Hev as [Hev | Hev]; [subst ev; cbn in Hobs | ]);
    try contradiction; try discriminate; injection Hobs as <-;
    eexists [_; _; _; _; _; _]; eexists; eexists; reflexivity.
Qed.

Lemma direct_get_line_reports_returned_version_witness :
  In seventh_looked_up (trace (run canned renumbering))
  /\ looked_up seventh_looked_up = Some seventh_version
  /\ In "Direct get works: v7" (stdout (trace (run canned renumbering)))
  /\ exists pre r post,
       trace (run canned renumbering) =
         (pre ++ seventh_looked_up
              :: Printed ("Direct get works: v" ++ version seventh_version)
              :: Printed (LF ++ "Trying search_model_versions...")
              :: Called (search_model_versions "name='test-search-bug'") r
              :: post)%list.
Proof.
  assert (H : In seventh_looked_up (trace (run canned renumbering)))
    by (cbv; tauto).
  assert (Hl : looked_up seventh_looked_up = Some seventh_version)
    by reflexivity.
  split; [exact H | split; [exact Hl | split; [cbv; tauto |]]].
  exact (direct_get_line_reports_returned_version canned renumbering
           seventh_looked_up H Hl).
Defined.

(** X5: the whole standard output of a run that ends normally.  It is
    one of the two EnsureEntity lines, "Created version", the
    direct-get line for the record the lookup returned, the search
    announcement and the count line for the sequence the search
    returned, followed by the two BUG CONFIRMED lines when that
    sequence is empty and by nothing otherwise. *)
Theorem stdout_of_a_completed_run
    (S : Type) (L : Backend S) (s : S) :
  outcome (run L s) = Done tt ->
  exists first v vs,
    (first = "Created model: test-search-bug"
     \/ first = "Model test-search-bug already exists")
    /\ lookup_returned v (trace (run L s))
    /\ search_returned vs (trace (run L s))
    /\ stdout (trace (run L s)) =
         ([first;
           "Created version";
           ("Direct get works: v" ++ version v)%string;
           (LF ++ "Trying search_model_versions...")%string;
           count_line (List.length vs)]
          ++ match vs with
             | [] => [BUG_CONFIRMED;
                      "The endpoint returns {} regardless of filter."]
             | _ :: _ => []
             end)%list.
Proof.
  walk; intros H; try discriminate H;
    (eexists; eexists; eexists;
     (split; [| split; [by_event | split; [by_event |]]]);
     [ | reflexivity ]; first [left; reflexivity | right; reflexivity]).
Qed.

Lemma stdout_of_a_completed_run_witness :
  outcome (run registry populated) = Done tt
  /\ exists first v vs,
       (first = "Created model: test-search-bug"
        \/ first = "Model test-search-bug already exists")
       /\ lookup_returned v (trace (run registry populated))
       /\ search_returned vs (trace (run registry populated))
       /\ stdout (trace (run registry populated)) =
            ([first;
              "Created version";
              ("Direct get works: v" ++ version v)%string;
              (LF ++ "Trying search_model_versions...")%string;
              count_line (List.length vs)]
             ++ match vs with
                | [] => [BUG_CONFIRMED;
                         "The endpoint returns {} regardless of filter."]
                | _ :: _ => []
                end)%list.
Proof.
  assert (H : outcome (run registry populated) = Done tt) by reflexivity.
  split; [exact H |].
  exact (stdout_of_a_completed_run registry populated H).
Defined.

(** X6: what the script asks of the library never depends on what the
    library answered.  The calls of any run, with every argument
    (tracking URI, entity name, source locator, both tag payloads, the
    version "1" and the filter string), are an initial segment of the
    six calls of the source text, and all six in a run that ends
    normally. *)
Theorem requests_are_fixed
    (S : Type) (L : Backend S) (s : S) :
  (exists n, requests (trace (run L s)) = firstn n script_requests)
  /\ (outcome (run L s) = Done tt ->
      requests (trace (run L s)) = script_requests).
Proof.
  split.
  - walk;
      solve [ now exists 1 | now exists 2 | now exists 3
            | now exists 4 | now exists 5 | now exists 6 ].
  - walk; intros H; try discriminate H; reflexivity.
Qed.

Lemma requests_are_fixed_witness :
  outcome (run canned renumbering) = Done tt
  /\ requests (trace (run canned renumbering)) = script_requests.
Proof.
  assert (H : outcome (run canned renumbering) = Done tt) by reflexivity.
  split; [exact H |].
  exact (proj2 (requests_are_fixed canned renumbering) H).
Defined.

(** ** The run past the EnsureEntity step *)

Lemma main_after_ensure :
  main =
    (call (set_tracking_uri "http://localhost:5000") ;;
     call MlflowClient ;;
     try_except
       (call (create_registered_model MODEL_NAME
                [[("key", "mlflow.prompt.is_prompt"); ("value", "true")]]) ;;
        print ("Created model: " ++ MODEL_NAME))
       (fun e =>
          if contains "ALREADY_EXISTS" (exc_str e)
          then print ("Model " ++ MODEL_NAME ++ " already exists")
          else Raise e) ;;
     after_ensure).
Proof. reflexivity. Qed.

(** The statements after the [try] block never call
    [create_registered_model]. *)
Lemma after_ensure_leaves_entity_alone
    (S : Type) (L : Backend S) (s : S) (ev : Event) :
  In ev (trace (exec L after_ensure s)) ->
  created_model ev = None /\ create_error ev = None.
Proof.
  revert ev. unfold after_ensure; cbn; repeat (answer || branch);
    intros ev Hev; cbn in Hev;
    repeat (destruct Hev as [Hev | Hev]; [subst ev; now split | ]);
    contradiction.
Qed.

(** X7: an absorbed already-exists error leaves no mark on the rest of
    the run.  Take a run in which [create_registered_model] returned
    and one in which it raised an absorbed exception: if the library
    answers the later calls alike, then past the EnsureEntity line the
    two runs show the same events and end the same way. *)
Theorem absorbed_error_continues_as_created
    (S1 S2 : Type) (L1 : Backend S1) (L2 : Backend S2) (s1 : S1) (s2 : S2)
    (m : RegisteredModel) (e : PyExc) :
  create_returned m (trace (run L1 s1)) ->
  create_raised e (trace (run L2 s2)) ->
  contains "ALREADY_EXISTS" (exc_str e) = true ->
  skipn 3 (answers (trace (run L1 s1))) = skipn 3 (answers (trace (run L2 s2))) ->
  skipn 4 (trace (run L1 s1)) = skipn 4 (trace (run L2 s2))
  /\ outcome (run L1 s1) = outcome (run L2 s2).
Proof.
  unfold run. rewrite main_after_ensure. cbn -[after_ensure].
  repeat answer_ensure.
  all: rewrite ?trace_after, ?outcome_after; cbn -[after_ensure].
  all: intros [ev1 [Hev1 Hobs1]] [ev2 [Hev2 Hobs2]] He Ha.
  all: cbn in Hev1, Hev2.
  all: repeat (destruct Hev1 as [Hev1 | Hev1]; [subst ev1; cbn in Hobs1 | ]);
    try contradiction; try discriminate Hobs1;
    try (apply after_ensure_leaves_entity_alone in Hev1; now intuition congruence).
  all: repeat (destruct Hev2 as [Hev2 | Hev2]; [subst ev2; cbn in Hobs2 | ]);
    try contradiction; try discriminate Hobs2;
    try (apply after_ensure_leaves_entity_alone in Hev2; now intuition congruence).
  all: injection Hobs2 as <-; try congruence.
  all: now apply exec_determined_by_answers.
Qed.

Lemma absorbed_error_continues_as_created_witness :
  create_returned {| rm_name := "test-search-bug" |}
    (trace (run registry healthy))
  /\ create_raised (already_exists "test-search-bug")
       (trace (run registry entity_only))
  /\ contains "ALREADY_EXISTS" (exc_str (already_exists "test-search-bug"))
     = true
  /\ skipn 3 (answers (trace (run registry healthy)))
     = skipn 3 (answers (trace (run registry entity_only)))
  /\ skipn 4 (trace (run registry healthy))
     = skipn 4 (trace (run registry entity_only))
  /\ outcome (run registry healthy) = outcome (run registry entity_only).
Proof.
  assert (H1 : create_returned {| rm_name := "test-search-bug" |}
                 (trace (run registry healthy))).
  { exists (Called (create_registered_model "test-search-bug"
                      [[("key", "mlflow.prompt.is_prompt"); ("value", "true")]])
                   (inr {| rm_name := "test-search-bug" |})).
    split; [cbv; tauto | reflexivity]. }
  assert (H2 : create_raised (already_exists "test-search-bug")
                 (trace (run registry entity_only))).
  { exists create_rejected. split; [cbv; tauto | reflexivity]. }
  assert (He : contains "ALREADY_EXISTS"
                 (exc_str (already_exists "test-search-bug")) = true)
    by reflexivity.
  assert (Ha : skipn 3 (answers (trace (run registry healthy)))
               = skipn 3 (answers (trace (run registry entity_only))))
    by reflexivity.
  split; [exact H1 | split; [exact H2 | split; [exact He | split; [exact Ha |]]]].
  exact (absorbed_error_continues_as_created registry registry healthy
           entity_only H1 H2 He Ha).
Defined.

(** X8: the lines printed by a run that dies tell where it died.
    Nothing is printed when the failing call is one of the Connect
    calls or [create_registered_model]; the EnsureEntity line alone
    when it is [create_model_version]; that line and "Created version"
    when it is [get_model_version]; and those two, the direct-get line
    and the search announcement when it is [search_model_versions]. *)
Theorem printed_lines_locate_failure
    (S : Type) (L : Backend S) (s : S) (e : PyExc) :
  outcome (run L s) = Uncaught e ->
  (stdout (trace (run L s)) = []
   /\ In (steps (trace (run L s)))
        [firstn 1 protocol; firstn 2 protocol; firstn 3 protocol])
  \/ exists first,
       (first = "Created model: test-search-bug"
        \/ first = "Model test-search-bug already exists")
       /\ ((stdout (trace (run L s)) = [first]
            /\ steps (trace (run L s)) = firstn 4 protocol)
           \/ (stdout (trace (run L s)) = [first; "Created version"]
               /\ steps (trace (run L s)) = firstn 5 protocol)
           \/ (exists v,
                 lookup_returned v (trace (run L s))
                 /\ stdout (trace (run L s)) =
                      [first; "Created version";
                       "Direct get works: v" ++ version v;
                       LF ++ "Trying search_model_versions..."]
                 /\ steps (trace (run L s)) = protocol)).
Proof.
  walk; intros H; try discriminate H;
    first
      [ left; split; [reflexivity | cbn; tauto]
      | right; eexists;
        (split;
         [ | first
               [ left; split; reflexivity
               | right; left; split; reflexivity
               | right; right; eexists;
                 (split; [by_event | split; reflexivity]) ] ]);
        first [left; reflexivity | right; reflexivity] ].
Qed.

Lemma printed_lines_locate_failure_witness :
  outcome (run canned conflicting) = Uncaught version_conflict
  /\ stdout (trace (run canned conflicting))
     = ["Model test-search-bug already exists"]
  /\ ((stdout (trace (run canned conflicting)) = []
       /\ In (steps (trace (run canned conflicting)))
            [firstn 1 protocol; firstn 2 protocol; firstn 3 protocol])
      \/ exists first,
           (first = "Created model: test-search-bug"
            \/ first = "Model test-search-bug already exists")
           /\ ((stdout (trace (run canned conflicting)) = [first]
                /\ steps (trace (run canned conflicting)) = firstn 4 protocol)
               \/ (stdout (trace (run canned conflicting))
                   = [first; "Created version"]
                   /\ steps (trace (run canned conflicting))
                      = firstn 5 protocol)
               \/ (exists v,
                     lookup_returned v (trace (run canned conflicting))
                     /\ stdout (trace (run canned conflicting)) =
                          [first; "Created version";
                           "Direct get works: v" ++ version v;
                           LF ++ "Trying search_model_versions..."]
                     /\ steps (trace (run canned conflicting)) = protocol))).
Proof.
  assert (H : outcome (run canned conflicting) = Uncaught version_conflict)
    by reflexivity.
  split; [exact H | split; [reflexivity |]].
  exact (printed_lines_locate_failure canned conflicting H).
Defined.

(** ** The count line *)

Lemma list_ascii_of_append (a b : string) :
  list_ascii_of_string (a ++ b)
  = (list_ascii_of_string a ++ list_ascii_of_string b)%list.
Proof.
  induction a as [| c a IH]; simpl; [reflexivity | now rewrite IH].
Qed.

Lemma append_inv_tail (a b q : string) : a ++ q = b ++ q -> a = b.
Proof.
  intros H. apply (f_equal list_ascii_of_string) in H.
  rewrite !list_ascii_of_append in H. apply app_inv_tail in H.
  rewrite <- (string_of_list_ascii_of_string a),
          <- (string_of_list_ascii_of_string b).
  now rewrite H.
Qed.

Lemma append_inv_head (p a b : string) : p ++ a = p ++ b -> a = b.
Proof.
  induction p as [| c p IH]; simpl; intros H; [exact H |].
  injection H as H. now apply IH.
Qed.

Lemma str_of_nat_inj (n m : nat) : str_of_nat n = str_of_nat m -> n = m.
Proof.
  unfold str_of_nat. intros H.
  apply (f_equal NilEmpty.uint_of_string) in H.
  rewrite !NilEmpty.usu in H. injection H as H.
  rewrite <- (DecimalNat.Unsigned.of_to n), <- (DecimalNat.Unsigned.of_to m).
  now rewrite H.
Qed.

(** X9: the count line can be read back.  It is the decimal numeral of
    the number of records between two fixed pieces of text, so
    searches that return different numbers of records never print the
    same line. *)
Theorem count_line_determines_count (n m : nat) :
  count_line n = count_line m -> n = m.
Proof.
  unfold count_line. intros H.
  apply append_inv_head, append_inv_tail in H.
  now apply str_of_nat_inj.
Qed.

Lemma count_line_determines_count_witness :
  count_line (List.length (@nil ModelVersion)) = count_line 0
  /\ List.length (@nil ModelVersion) = 0.
Proof.
  assert (H : count_line (List.length (@nil ModelVersion)) = count_line 0)
    by reflexivity.
  split; [exact H |].
  exact (count_line_determines_count H).
Defined.
